(** * Backbone.LinkView: a shallow embedding of [src/backbone.linkview.js]

    The view is a record of its option fields, its private [_isActive]
    flag and its backing element.  Methods are actions of a small
    state-and-exception monad over the objects they reach: the view
    ([this]), the [Backbone.history] singleton and the DOM event handed to
    the click handler.  A thrown exception keeps the state reached so far,
    as in JavaScript.  The router and the view framework are not part of
    the repository: what they do with a navigation request and with the
    constructor's arguments is a parameter of the methods. *)

From Stdlib Require Import ZArith.
From stdpp Require Import gmap strings.

Local Open Scope string_scope.

(** ** JavaScript values *)

(** Function objects are references; what a function does when invoked is
    given by a table (see [call] below). *)
Definition fn_ref := nat.
Definition obj_ref := nat.

(** The values an option can hold.  Numbers are restricted to integers:
    no option of the view is numeric by intent, they only matter for
    truthiness. *)
Inductive value :=
| VUndefined
| VNull
| VBool (b : bool)
| VNum (n : Z)
| VStr (s : string)
| VFun (f : fn_ref)
| VObj (o : obj_ref).

(** [if (v)] *)
Definition truthy (v : value) : bool :=
  match v with
  | VUndefined | VNull => false
  | VBool b => b
  | VNum n => negb (n =? 0)%Z
  | VStr s => negb (String.eqb s "")
  | VFun _ | VObj _ => true
  end.

(** [a === b] *)
Definition strict_equals (a b : value) : bool :=
  match a, b with
  | VUndefined, VUndefined => true
  | VNull, VNull => true
  | VBool x, VBool y => Bool.eqb x y
  | VNum x, VNum y => (x =? y)%Z
  | VStr x, VStr y => String.eqb x y
  | VFun x, VFun y => Nat.eqb x y
  | VObj x, VObj y => Nat.eqb x y
  | _, _ => false
  end.

(** [_.isFunction(v)] *)
Definition isFunction (v : value) : bool :=
  match v with VFun _ => true | _ => false end.

(** What can be thrown: the engine's [TypeError] for a call of something
    that is not callable, or whatever an option function raises. *)
Inductive exn :=
| TypeError
| Raised (v : value).

Inductive outcome (A : Type) :=
| Normal (a : A)
| Thrown (e : exn).
Arguments Normal {A} a.
Arguments Thrown {A} e.

(** ** The element behind the view *)

(** What the element shows: the argument of the last [$el.text(..)] or
    [$el.html(..)] call. *)
Inductive content :=
| Text (v : value)
| Html (v : value).

(** Modelled from the spec: the view framework's element wrapper ([$el])
    is not part of this repository; the spec only asks of it "helpers to
    set text or markup content" and a class list on which the active class
    is added and removed.  A class name is one opaque string. *)
Record element := {
  el_content : content;
  classList : gset string
}.

Definition text (v : value) (e : element) : element :=
  {| el_content := Text v; classList := classList e |}.

Definition html (v : value) (e : element) : element :=
  {| el_content := Html v; classList := classList e |}.

Definition addClass (v : value) (e : element) : element :=
  match v with
  | VStr c => {| el_content := el_content e; classList := {[ c ]} ∪ classList e |}
  | _ => e
  end.

Definition removeClass (v : value) (e : element) : element :=
  match v with
  | VStr c => {| el_content := el_content e; classList := classList e ∖ {[ c ]} |}
  | _ => e
  end.

(** ** The view, the router and the click event *)

Record LinkView := {
  href : value;
  activeClass : value;
  textContent : value;
  innerHTML : value;
  template : value;
  _isActive : value;
  el : element
}.

(** The second argument of [Backbone.history.navigate]. *)
Record NavigateOptions := { trigger : bool }.

(** Modelled from the spec: the routing service is an external
    collaborator; it answers the current fragment and takes navigation
    requests, which are logged here in the order they are made (what it
    does with a request is [navigate], below). *)
Record History := {
  fragment : string;
  navigations : list (value * NavigateOptions)
}.

Record Event := { defaultPrevented : bool }.

Record World := {
  this : LinkView;
  history : History;
  event : Event
}.

Definition M (A : Type) : Type := World -> outcome A * World.

Definition ret {A} (a : A) : M A := fun σ => (Normal a, σ).

Definition bind {A B} (m : M A) (k : A -> M B) : M B :=
  fun σ =>
    match m σ with
    | (Normal a, σ') => k a σ'
    | (Thrown e, σ') => (Thrown e, σ')
    end.

Definition throw {A} (e : exn) : M A := fun σ => (Thrown e, σ).

Declare Scope js_scope.
Delimit Scope js_scope with js.
Notation "'let!' x ':=' m 'in' k" := (bind m (fun x => k))
  (at level 10, x name, m at level 100, k at level 200) : js_scope.
Notation "m '>>' k" := (bind m (fun _ => k))
  (at level 90, right associativity) : js_scope.
Local Open Scope js_scope.

Definition with_this (w : LinkView) (σ : World) : World :=
  {| this := w; history := history σ; event := event σ |}.

(** The world once the router has moved to [frag]. *)
Definition at_fragment (frag : string) (σ : World) : World :=
  {| this := this σ;
     history := {| fragment := frag; navigations := navigations (history σ) |};
     event := event σ |}.

(** The world when the browser hands over the event [e]. *)
Definition with_event (e : Event) (σ : World) : World :=
  {| this := this σ; history := history σ; event := e |}.

Definition get_this : M LinkView := fun σ => (Normal (this σ), σ).

Definition put_this (w : LinkView) : M unit :=
  fun σ => (Normal tt, with_this w σ).

Definition set_el (e : element) (w : LinkView) : LinkView :=
  {| href := href w; activeClass := activeClass w; textContent := textContent w;
     innerHTML := innerHTML w; template := template w; _isActive := _isActive w;
     el := e |}.

Definition set_isActive (v : value) (w : LinkView) : LinkView :=
  {| href := href w; activeClass := activeClass w; textContent := textContent w;
     innerHTML := innerHTML w; template := template w; _isActive := v;
     el := el w |}.

(** [this.$el.f(..)] for an element helper [f] *)
Definition on_el (f : element -> element) : M unit :=
  let! w := get_this in put_this (set_el (f (el w)) w).

(** [this._isActive = b] *)
Definition assign_isActive (b : bool) : M unit :=
  let! w := get_this in put_this (set_isActive (VBool b) w).

(** [Backbone.history.getFragment()] *)
Definition getFragment : M string := fun σ => (Normal (fragment (history σ)), σ).

(** The router takes note of a request. *)
Definition log_navigation (frag : value) (opts : NavigateOptions) : M unit :=
  fun σ =>
    (Normal tt,
     {| this := this σ;
        history := {| fragment := fragment (history σ);
                      navigations := navigations (history σ) ++ [(frag, opts)] |};
        event := event σ |}).

(** The router moves to the fragment [frag]. *)
Definition set_fragment (frag : string) : M unit :=
  fun σ => (Normal tt, at_fragment frag σ).

(** [e.preventDefault()] *)
Definition preventDefault : M unit :=
  fun σ =>
    (Normal tt,
     {| this := this σ; history := history σ;
        event := {| defaultPrevented := true |} |}).

(** ** Construction *)

Definition linkViewOptions : list string :=
  ["href"; "activeClass"; "textContent"; "innerHTML"; "template"].

(** The prototype's fields (source lines 36-64); [_isActive] is on neither
    the prototype nor a fresh instance, so reading it gives [undefined]. *)
Definition prototype (e : element) : LinkView :=
  {| href := VNull; activeClass := VStr "active"; textContent := VNull;
     innerHTML := VNull; template := VNull; _isActive := VUndefined; el := e |}.

(** [_.pick(obj, keys)]: the entries of [obj] whose key is listed, a key
    bound to [undefined] included. *)
Definition pick (obj : gmap string value) (keys : list string) : gmap string value :=
  filter (fun kv => kv.1 ∈ keys) obj.

(** [_.extend(this, src)]: every property of [src] is copied onto the
    view, shadowing what the view had under that name. *)
Definition extend (w : LinkView) (src : gmap string value) : LinkView :=
  {| href := default (href w) (src !! "href");
     activeClass := default (activeClass w) (src !! "activeClass");
     textContent := default (textContent w) (src !! "textContent");
     innerHTML := default (innerHTML w) (src !! "innerHTML");
     template := default (template w) (src !! "template");
     _isActive := default (_isActive w) (src !! "_isActive");
     el := el w |}.

(** A view has no element before the framework binds one. *)
Definition detached : element :=
  {| el_content := Html VUndefined; classList := ∅ |}.

(** Source line 104: the view once the listed options are copied onto
    it. *)
Definition configured (options : gmap string value) : LinkView :=
  extend (prototype detached) (pick options linkViewOptions).

(** ** Methods *)

Section Methods.

(** What each function object does when invoked with the view as [this]:
    it produces a value or throws.  Option functions are producers, they
    read the view and do not write it. *)
Variable call : fn_ref -> LinkView -> outcome value.

(** Modelled from the spec: the router behind [Backbone.history] is not
    part of this repository.  The spec has a navigation request "update
    history and fire route-change notifications synchronously or per the
    router's own scheduling"; [router frag current] answers, for a request
    of [frag] made at the fragment [current], the fragment the router
    moves to and whether it fires the [route] event before [navigate]
    returns. *)
Variable router : value -> string -> string * bool.

(** Modelled from the spec: [Backbone.View.apply(this, arguments)], the
    framework's constructor, is not part of this repository.  From the
    view as configured so far and the constructor's arguments it takes
    its own options ([id], [className], [tagName], [el], [attributes],
    [events], [model], [collection], none of which this record holds),
    computes the attributes, creates or adopts the backing element, and
    may throw; it answers the element it binds. *)
Variable View_apply : LinkView -> gmap string value -> outcome element.

(** [_.result(this, prop)] *)
Definition _result (prop : LinkView -> value) : M value :=
  fun σ =>
    match prop (this σ) with
    | VFun f => (call f (this σ), σ)
    | v => (Normal v, σ)
    end.

(** [this.prop()] *)
Definition invoke (prop : LinkView -> value) : M value :=
  fun σ =>
    match prop (this σ) with
    | VFun f => (call f (this σ), σ)
    | _ => throw TypeError σ
    end.

Definition attributes : M (gmap string value) :=
  let! h := _result href in
  ret {[ "href" := h ]}.

Definition isActive : M value :=
  let! w := get_this in
  ret (VBool (negb (negb (truthy (_isActive w))))).

Definition render : M LinkView :=
  let! w := get_this in
  (if truthy (textContent w) then
     let! v := _result textContent in on_el (text v)
   else if truthy (innerHTML w) then
     let! v := _result innerHTML in on_el (html v)
   else if truthy (template w) then
     let! v := invoke template in on_el (html v)
   else ret tt) >>
  get_this.

Definition _onRoute : M unit :=
  let! route := getFragment in
  let! h := _result href in
  let! cls := _result activeClass in
  let! w := get_this in
  if strict_equals (VStr route) h && negb (truthy (_isActive w)) then
    assign_isActive true >> on_el (addClass cls)
  else if truthy (_isActive w) then
    assign_isActive false >> on_el (removeClass cls)
  else ret tt.

(** [Backbone.history.navigate(fragment, options)]: the request is
    logged, the router moves to the fragment it settles on and, when
    asked to trigger and the router fires, the [route] event reaches its
    listener, the view's [_onRoute] (subscribed in the constructor,
    source line 105), before [navigate] returns. *)
Definition navigate (frag : value) (opts : NavigateOptions) : M unit :=
  log_navigation frag opts >>
  let! current := getFragment in
  set_fragment (fst (router frag current)) >>
  if trigger opts && snd (router frag current) then _onRoute else ret tt.

Definition _onClick : M unit :=
  preventDefault >>
  let! h := _result href in
  navigate h {| trigger := true |}.

(** [new LinkView(options)]: the listed options are copied (line 104),
    the view subscribes [_onRoute] to the router's [route] event (line
    105, which is why [navigate] and a route change run it), and the
    framework's constructor binds the element or throws (line 106). *)
Definition constructor (options : gmap string value) : outcome LinkView :=
  match View_apply (configured options) options with
  | Normal e => Normal (set_el e (configured options))
  | Thrown x => Thrown x
  end.

(** ** The life of a view

    What reaches a view after construction: its owner calls the public
    methods, the browser delivers a click with its event object, the
    router reports a route change after which [getFragment] answers the
    new fragment. *)
Inductive stimulus :=
| CallRender
| CallAttributes
| CallIsActive
| Click (e : Event)
| RouteChange (frag : string).

Definition deliver (s : stimulus) (σ : World) : World :=
  match s with
  | CallRender => snd (render σ)
  | CallAttributes => snd (attributes σ)
  | CallIsActive => snd (isActive σ)
  | Click e => snd (_onClick (with_event e σ))
  | RouteChange frag => snd (_onRoute (at_fragment frag σ))
  end.

Definition run (ss : list stimulus) (σ : World) : World :=
  fold_left (fun σ s => deliver s σ) ss σ.

(** Whether delivering [s] at [σ] brings a route-change notification to
    the view: a route change does, and so does a click whose navigation
    request the router answers by firing. *)
Definition notifies (s : stimulus) (σ : World) : bool :=
  match s with
  | RouteChange _ => true
  | Click _ =>
      match fst (_result href σ) with
      | Normal h => snd (router h (fragment (history σ)))
      | Thrown _ => false
      end
  | _ => false
  end.

(** No route-change notification is delivered along [ss] from [σ]. *)
Fixpoint silent (ss : list stimulus) (σ : World) : bool :=
  match ss with
  | [] => true
  | s :: ss' => negb (notifies s σ) && silent ss' (deliver s σ)
  end.

End Methods.

(** ** Worlds named in the statements *)

(** What a click leaves behind when [href] cannot be resolved: the event
    with its default action suppressed. *)
Definition prevented (σ : World) : World :=
  {| this := this σ; history := history σ;
     event := {| defaultPrevented := true |} |}.

(** What a click leaves behind when [href] resolves to [h]. *)
Definition requested (h : value) (σ : World) : World :=
  {| this := this σ;
     history := {| fragment := fragment (history σ);
                   navigations := navigations (history σ) ++ [(h, {| trigger := true |})] |};
     event := {| defaultPrevented := true |} |}.

(** Where the route notification of a click is delivered, if the router
    fires it: the request for [h] is logged, the default action is
    suppressed, the router has moved. *)
Definition landed (router : value -> string -> string * bool)
    (h : value) (σ : World) : World :=
  at_fragment (fst (router h (fragment (history σ)))) (requested h σ).

(** ** Sample data for the closed statements *)

Definition blank : element :=
  {| el_content := Html (VStr ""); classList := ∅ |}.

Definition idle : History := {| fragment := "home"; navigations := [] |}.

(** A framework that binds a blank element whatever it is given. *)
Definition sample_View (w : LinkView) (options : gmap string value) : outcome element :=
  Normal blank.

(** A router in the manner of Backbone's: a request for the fragment it
    is at is dropped, any other string becomes the fragment and its route
    fires, anything else is ignored. *)
Definition sample_router (frag : value) (current : string) : string * bool :=
  match frag with
  | VStr s => if String.eqb s current then (current, false) else (s, true)
  | _ => (current, false)
  end.

(** A view just constructed on a blank element, the router idle. *)
Definition fresh_world (options : gmap string value) : World :=
  {| this := set_el blank (configured options); history := idle;
     event := {| defaultPrevented := false |} |}.

Definition about_world (flag : value) (classes : gset string) : World :=
  {| this := {| href := VStr "about"; activeClass := VStr "active";
                textContent := VNull; innerHTML := VNull; template := VNull;
                _isActive := flag;
                el := {| el_content := Html (VStr ""); classList := classes |} |};
     history := {| fragment := "about"; navigations := [] |};
     event := {| defaultPrevented := false |} |}.

(** A function table: [0] is [() => 'contact'], [1] names the class after
    the view's current flag, [2] is a template, anything else throws. *)
Definition sample_call (f : fn_ref) (w : LinkView) : outcome value :=
  match f with
  | 0 => Normal (VStr "contact")
  | 1 => Normal (VStr (if truthy (_isActive w) then "lit" else "dim"))
  | 2 => Normal (VStr "<i>go</i>")
  | _ => Thrown (Raised (VStr "boom"))
  end.

(** The five options of two views agree. *)
Definition same_options (w w' : LinkView) : Prop :=
  href w = href w' ∧ activeClass w = activeClass w' ∧
  textContent w = textContent w' ∧ innerHTML w = innerHTML w' ∧
  template w = template w'.

(** Whether the element carries the class [c]. *)
Definition hasClass (c : string) (e : element) : bool :=
  bool_decide (c ∈ classList e).

(** [_.isString(v)] *)
Definition isString (v : value) : bool :=
  match v with VStr _ => true | _ => false end.

(** The characters that separate class names in a class attribute: space,
    tab, line feed, form feed, carriage return. *)
Definition is_space (a : Ascii.ascii) : bool :=
  let n := Ascii.nat_of_ascii a in
  Nat.eqb n 32 || Nat.eqb n 9 || Nat.eqb n 10 || Nat.eqb n 12 || Nat.eqb n 13.

Fixpoint no_space (s : string) : bool :=
  match s with
  | EmptyString => true
  | String a s' => negb (is_space a) && no_space s'
  end.

(** One class name: not empty, no separator in it. *)
Definition class_name (s : string) : bool :=
  negb (String.eqb s "") && no_space s.

(** The values the handlers ever leave in [_isActive]: nothing yet, or a
    boolean. *)
Definition is_flag (v : value) : bool :=
  match v with VUndefined | VBool _ => true | _ => false end.

(** ** Basic facts *)

Lemma strict_equals_true (a b : value) : strict_equals a b = true <-> a = b.
Proof.
  split.
  - destruct a, b; simpl; try discriminate; try reflexivity; intros H.
    + apply Bool.eqb_prop in H. congruence.
    + apply Z.eqb_eq in H. congruence.
    + apply String.eqb_eq in H. congruence.
    + apply Nat.eqb_eq in H. congruence.
    + apply Nat.eqb_eq in H. congruence.
  - intros <-. destruct a; simpl; try reflexivity.
    + apply Bool.eqb_reflx.
    + apply Z.eqb_refl.
    + apply String.eqb_refl.
    + apply Nat.eqb_refl.
    + apply Nat.eqb_refl.
Qed.

Lemma strict_equals_false (a b : value) : strict_equals a b = false <-> a ≠ b.
Proof.
  rewrite <- strict_equals_true. destruct (strict_equals a b); split; congruence.
Qed.

Lemma with_this_this (σ : World) : with_this (this σ) σ = σ.
Proof. destruct σ; reflexivity. Qed.

Lemma at_fragment_id (σ : World) : at_fragment (fragment (history σ)) σ = σ.
Proof. destruct σ as [w [f n] e]; reflexivity. Qed.

Ltac unfold_js :=
  unfold on_el, assign_isActive, getFragment, log_navigation, set_fragment,
    preventDefault, get_this, put_this, bind, ret, throw in *.

Section Properties.

Variable call : fn_ref -> LinkView -> outcome value.
Variable router : value -> string -> string * bool.
Variable View_apply : LinkView -> gmap string value -> outcome element.

(** Resolving an option reads the view and nothing else. *)
Lemma _result_state (prop : LinkView -> value) (σ : World) :
  snd (_result call prop σ) = σ.
Proof. unfold _result. destruct (prop (this σ)); reflexivity. Qed.

Lemma _result_this (prop : LinkView -> value) (σ σ' : World) :
  this σ' = this σ -> fst (_result call prop σ') = fst (_result call prop σ).
Proof. unfold _result. intros ->. destruct (prop (this σ)); reflexivity. Qed.

Lemma _result_split (prop : LinkView -> value) (σ : World) :
  _result call prop σ = (fst (_result call prop σ), σ).
Proof. rewrite <- (_result_state prop σ) at 3. apply surjective_pairing. Qed.

Lemma invoke_split (prop : LinkView -> value) (σ : World) :
  invoke call prop σ = (fst (invoke call prop σ), σ).
Proof. unfold invoke. destruct (prop (this σ)); reflexivity. Qed.

Lemma invoke_this (prop : LinkView -> value) (σ σ' : World) :
  this σ' = this σ -> fst (invoke call prop σ') = fst (invoke call prop σ).
Proof. unfold invoke. intros ->. destruct (prop (this σ)); reflexivity. Qed.

(** The route handler, as one case analysis on the two resolutions. *)
Lemma _onRoute_cases (σ : World) :
  _onRoute call σ =
    match fst (_result call href σ) with
    | Thrown e => (Thrown e, σ)
    | Normal h =>
        match fst (_result call activeClass σ) with
        | Thrown e => (Thrown e, σ)
        | Normal cls =>
            let w := this σ in
            if strict_equals (VStr (fragment (history σ))) h
               && negb (truthy (_isActive w)) then
              (Normal tt,
               with_this (set_el (addClass cls (el w)) (set_isActive (VBool true) w)) σ)
            else if truthy (_isActive w) then
              (Normal tt,
               with_this (set_el (removeClass cls (el w)) (set_isActive (VBool false) w)) σ)
            else (Normal tt, σ)
        end
    end.
Proof.
  unfold _onRoute, bind at 1, getFragment.
  unfold bind at 1. rewrite (_result_split href σ).
  destruct (fst (_result call href σ)) as [h|e1]; [|reflexivity].
  unfold bind at 1. rewrite (_result_split activeClass σ).
  destruct (fst (_result call activeClass σ)) as [c|e2]; [|reflexivity].
  unfold_js. cbn [fst snd this with_this el set_isActive].
  destruct (_ && _); [reflexivity|].
  destruct (truthy _); reflexivity.
Qed.

(** The route handler, once both options have resolved. *)
Lemma _onRoute_resolved (σ : World) (h cls : value) :
  fst (_result call href σ) = Normal h ->
  fst (_result call activeClass σ) = Normal cls ->
  _onRoute call σ =
    let w := this σ in
    if strict_equals (VStr (fragment (history σ))) h && negb (truthy (_isActive w)) then
      (Normal tt, with_this (set_el (addClass cls (el w)) (set_isActive (VBool true) w)) σ)
    else if truthy (_isActive w) then
      (Normal tt, with_this (set_el (removeClass cls (el w)) (set_isActive (VBool false) w)) σ)
    else (Normal tt, σ).
Proof. intros Hh Hc. rewrite _onRoute_cases, Hh, Hc. reflexivity. Qed.

(** The route handler when an option function throws: nothing is touched. *)
Lemma _onRoute_thrown (σ : World) (e : exn) :
  fst (_onRoute call σ) = Thrown e -> snd (_onRoute call σ) = σ.
Proof.
  rewrite _onRoute_cases.
  destruct (fst (_result call href σ)) as [h|e1]; [|reflexivity].
  destruct (fst (_result call activeClass σ)) as [c|e2]; [|reflexivity].
  cbv zeta.
  destruct (_ && _); [discriminate|].
  destruct (truthy _); [discriminate|reflexivity].
Qed.

(** The row of the transition table that the handler does honour as a
    no-op: inactive and the fragment differs. *)
Lemma _onRoute_inactive_elsewhere (σ : World) :
  truthy (_isActive (this σ)) = false ->
  fst (_result call href σ) ≠ Normal (VStr (fragment (history σ))) ->
  snd (_onRoute call σ) = σ.
Proof.
  intros Hoff Hne. rewrite _onRoute_cases.
  destruct (fst (_result call href σ)) as [h|e1]; [|reflexivity].
  destruct (fst (_result call activeClass σ)) as [c|e2]; [|reflexivity].
  cbv zeta. rewrite Hoff.
  destruct (strict_equals _ h) eqn:Heq; [|reflexivity].
  apply strict_equals_true in Heq. congruence.
Qed.

(** An active view is switched off by any route change, whatever the
    fragment: the second test of the handler looks at the flag alone. *)
Lemma _onRoute_active (σ : World) (h cls : value) :
  fst (_result call href σ) = Normal h ->
  fst (_result call activeClass σ) = Normal cls ->
  truthy (_isActive (this σ)) = true ->
  _onRoute call σ =
    (Normal tt,
     with_this (set_el (removeClass cls (el (this σ)))
                  (set_isActive (VBool false) (this σ))) σ).
Proof.
  intros Hh Hc Ha. rewrite (_onRoute_resolved σ h cls Hh Hc). cbv zeta.
  rewrite Ha, Bool.andb_false_r. reflexivity.
Qed.

(** [render], as one case analysis on the option it selects. *)
Lemma render_cases (σ : World) :
  render call σ =
    let w := this σ in
    if truthy (textContent w) then
      match fst (_result call textContent σ) with
      | Normal v =>
          (Normal (set_el (text v (el w)) w), with_this (set_el (text v (el w)) w) σ)
      | Thrown e => (Thrown e, σ)
      end
    else if truthy (innerHTML w) then
      match fst (_result call innerHTML σ) with
      | Normal v =>
          (Normal (set_el (html v (el w)) w), with_this (set_el (html v (el w)) w) σ)
      | Thrown e => (Thrown e, σ)
      end
    else if truthy (template w) then
      match fst (invoke call template σ) with
      | Normal v =>
          (Normal (set_el (html v (el w)) w), with_this (set_el (html v (el w)) w) σ)
      | Thrown e => (Thrown e, σ)
      end
    else (Normal w, σ).
Proof.
  unfold render, bind at 1, get_this at 1. cbv zeta.
  destruct (truthy (textContent (this σ))).
  { unfold bind at 1. unfold bind at 1. rewrite (_result_split textContent σ).
    destruct (fst (_result call textContent σ)); reflexivity. }
  destruct (truthy (innerHTML (this σ))).
  { unfold bind at 1. unfold bind at 1. rewrite (_result_split innerHTML σ).
    destruct (fst (_result call innerHTML σ)); reflexivity. }
  destruct (truthy (template (this σ))).
  { unfold bind at 1. unfold bind at 1. rewrite (invoke_split template σ).
    destruct (fst (invoke call template σ)); reflexivity. }
  reflexivity.
Qed.

(** A route change leaves the router and the event alone, and of the
    view it keeps the options. *)
Lemma _onRoute_world (σ : World) :
  history (snd (_onRoute call σ)) = history σ
  ∧ event (snd (_onRoute call σ)) = event σ.
Proof.
  rewrite _onRoute_cases.
  destruct (fst (_result call href σ)); [|split; reflexivity].
  destruct (fst (_result call activeClass σ)); [|split; reflexivity].
  cbv zeta. destruct (_ && _); [split; reflexivity|].
  destruct (truthy _); split; reflexivity.
Qed.

Lemma _onClick_cases (σ : World) :
  _onClick call router σ =
    match fst (_result call href σ) with
    | Normal h =>
        if snd (router h (fragment (history σ))) then _onRoute call (landed router h σ)
        else (Normal tt, landed router h σ)
    | Thrown e => (Thrown e, prevented σ)
    end.
Proof.
  unfold _onClick, bind at 1, preventDefault. fold (prevented σ).
  unfold bind at 1. rewrite (_result_split href (prevented σ)).
  rewrite (_result_this href σ (prevented σ)) by reflexivity.
  destruct (fst (_result call href σ)) as [h|x]; [|reflexivity].
  unfold navigate, bind, log_navigation, getFragment, set_fragment, ret.
  cbn [fst snd history fragment trigger andb prevented].
  fold (requested h σ). fold (landed router h σ).
  destruct (snd (router h (fragment (history σ)))); reflexivity.
Qed.

Lemma attributes_cases (σ : World) :
  attributes call σ =
    match fst (_result call href σ) with
    | Normal h => (Normal {[ "href" := h ]}, σ)
    | Thrown e => (Thrown e, σ)
    end.
Proof.
  unfold attributes, bind. rewrite (_result_split href σ).
  destruct (fst (_result call href σ)); reflexivity.
Qed.

(** ** The specified behaviour *)

(** C1 (the code departs from it).  The claim makes a route change a
    no-op when the view is active and the fragment equals the resolved
    href.  On the code that row clears the flag and removes the class: a
    link to 'about' that has just become active under fragment 'about'
    is switched off by a second notification under the same fragment. *)
Theorem C1_active_and_matching_is_switched_off :
  let σ0 := fresh_world {[ "href" := VStr "about" ]} in
  let σ1 := deliver call router (RouteChange "about") σ0 in
  let σ2 := deliver call router (RouteChange "about") σ1 in
  (_isActive (this σ1) = VBool true ∧ "active" ∈ classList (el (this σ1))) ∧
  fst (_result call href (at_fragment "about" σ1))
    = Normal (VStr (fragment (history (at_fragment "about" σ1)))) ∧
  fst (_onRoute call (at_fragment "about" σ1)) = Normal tt ∧
  _isActive (this σ2) = VBool false ∧
  ("active" ∉ classList (el (this σ2))) ∧
  (classList (el (this σ2)) ≠ classList (el (this σ1))).
Proof.
  cbv zeta.
  assert (H1 : deliver call router (RouteChange "about")
                 (fresh_world {[ "href" := VStr "about" ]})
               = about_world (VBool true) {[ "active" ]})
    by (vm_compute; reflexivity).
  assert (H2 : deliver call router (RouteChange "about") (about_world (VBool true) {[ "active" ]})
               = about_world (VBool false) ({[ "active" ]} ∖ {[ "active" ]}))
    by (vm_compute; reflexivity).
  assert (H3 : _onRoute call (about_world (VBool true) {[ "active" ]})
               = (Normal tt, about_world (VBool false) ({[ "active" ]} ∖ {[ "active" ]})))
    by (vm_compute; reflexivity).
  rewrite !H1, H2.
  change (at_fragment "about" (about_world (VBool true) {[ "active" ]}))
    with (about_world (VBool true) {[ "active" ]}).
  rewrite H3. unfold about_world; cbn [this el classList _isActive fst history fragment].
  split_and!.
  - reflexivity.
  - apply elem_of_singleton. reflexivity.
  - reflexivity.
  - reflexivity.
  - reflexivity.
  - intros [_ Hout]%elem_of_difference. apply Hout, elem_of_singleton. reflexivity.
  - intros Heq.
    assert (Hin : "active" ∈ ({[ "active" ]} ∖ {[ "active" ]} : gset string)).
    { rewrite Heq. apply elem_of_singleton. reflexivity. }
    apply elem_of_difference in Hin as [_ Hout].
    apply Hout, elem_of_singleton. reflexivity.
Qed.

Lemma isActive_eq (σ : World) :
  isActive σ = (Normal (VBool (truthy (_isActive (this σ)))), σ).
Proof. unfold isActive, bind, get_this, ret. rewrite Bool.negb_involutive. reflexivity. Qed.

(** C2.  A route change whose fragment is the resolved href, arriving at
    an inactive view, sets the flag to [true] and adds the resolved
    active class, after which [isActive()] answers [true]; a route change
    whose fragment differs, arriving at an active view, sets the flag to
    [false] and removes the resolved active class. *)
Theorem C2_route_change_toggles (σ : World) (h cls : value) :
  fst (_result call href σ) = Normal h ->
  fst (_result call activeClass σ) = Normal cls ->
  (h = VStr (fragment (history σ)) ->
   truthy (_isActive (this σ)) = false ->
   let σ' := with_this (set_el (addClass cls (el (this σ)))
                          (set_isActive (VBool true) (this σ))) σ in
   _onRoute call σ = (Normal tt, σ') ∧
   _isActive (this σ') = VBool true ∧
   (∀ c, cls = VStr c -> c ∈ classList (el (this σ'))) ∧
   fst (isActive σ') = Normal (VBool true))
  ∧
  (h ≠ VStr (fragment (history σ)) ->
   truthy (_isActive (this σ)) = true ->
   let σ' := with_this (set_el (removeClass cls (el (this σ)))
                          (set_isActive (VBool false) (this σ))) σ in
   _onRoute call σ = (Normal tt, σ') ∧
   _isActive (this σ') = VBool false ∧
   (∀ c, cls = VStr c -> c ∉ classList (el (this σ'))) ∧
   fst (isActive σ') = Normal (VBool false)).
Proof.
  intros Hh Hc. split; intros Hm Ha σ'; subst σ'.
  - split_and!.
    + rewrite (_onRoute_resolved σ h cls Hh Hc). cbv zeta.
      rewrite Ha. subst h. rewrite (proj2 (strict_equals_true _ _) eq_refl).
      reflexivity.
    + reflexivity.
    + intros c ->. cbn. apply elem_of_union_l, elem_of_singleton. reflexivity.
    + rewrite isActive_eq. reflexivity.
  - split_and!.
    + rewrite (_onRoute_resolved σ h cls Hh Hc). cbv zeta.
      rewrite Ha. rewrite Bool.andb_false_r. reflexivity.
    + reflexivity.
    + intros c ->. cbn. intros [_ Hout]%elem_of_difference.
      apply Hout, elem_of_singleton. reflexivity.
    + rewrite isActive_eq. reflexivity.
Qed.

(** C3.  [render()] honours exactly one content option, the first truthy
    one in the order textContent, innerHTML, template: the element's text
    becomes the resolved textContent; failing that its markup becomes the
    resolved innerHTML; failing that its markup becomes [template()]. *)
Theorem C3_render_priority (σ : World) (v : value) :
  let w := this σ in
  (truthy (textContent w) = true ->
   fst (_result call textContent σ) = Normal v ->
   render call σ = (Normal (set_el (text v (el w)) w), with_this (set_el (text v (el w)) w) σ)
   ∧ el_content (el (this (snd (render call σ)))) = Text v)
  ∧
  (truthy (textContent w) = false ->
   truthy (innerHTML w) = true ->
   fst (_result call innerHTML σ) = Normal v ->
   render call σ = (Normal (set_el (html v (el w)) w), with_this (set_el (html v (el w)) w) σ)
   ∧ el_content (el (this (snd (render call σ)))) = Html v)
  ∧
  (truthy (textContent w) = false ->
   truthy (innerHTML w) = false ->
   truthy (template w) = true ->
   fst (invoke call template σ) = Normal v ->
   render call σ = (Normal (set_el (html v (el w)) w), with_this (set_el (html v (el w)) w) σ)
   ∧ el_content (el (this (snd (render call σ)))) = Html v).
Proof.
  cbv zeta. rewrite render_cases. cbv zeta. split_and!.
  - intros -> ->. split; reflexivity.
  - intros -> -> ->. split; reflexivity.
  - intros -> -> -> ->. split; reflexivity.
Qed.

(** C4.  A click always suppresses the event's default action, and asks
    the router to navigate to the href resolved at that moment, with
    [trigger: true]; what else the click does is the route notification,
    if the router fires it. *)
Theorem C4_click_navigates (σ : World) :
  defaultPrevented (event (snd (_onClick call router σ))) = true
  ∧ ∀ h, fst (_result call href σ) = Normal h ->
      navigations (history (snd (_onClick call router σ)))
        = (navigations (history σ) ++ [(h, {| trigger := true |})])%list
      ∧ _onClick call router σ
        = if snd (router h (fragment (history σ)))
          then _onRoute call (landed router h σ)
          else (Normal tt, landed router h σ).
Proof.
  rewrite _onClick_cases. split.
  - destruct (fst (_result call href σ)) as [h|x]; [|reflexivity].
    destruct (snd (router h (fragment (history σ)))); [|reflexivity].
    rewrite (proj2 (_onRoute_world (landed router h σ))). reflexivity.
  - intros h ->. split; [|reflexivity].
    destruct (snd (router h (fragment (history σ)))); [|reflexivity].
    rewrite (proj1 (_onRoute_world (landed router h σ))). reflexivity.
Qed.

(** C5.  [attributes()] returns an object whose [href] is the href option
    resolved at the call: a literal as it is, a function's return value
    when invoked with the view as [this]. *)
Theorem C5_attributes_href (σ : World) :
  (∀ v, fst (_result call href σ) = Normal v ->
     ∃ o : gmap string value,
       attributes call σ = (Normal o, σ) ∧ o !! "href" = Some v ∧ o = {[ "href" := v ]})
  ∧ (isFunction (href (this σ)) = false ->
     fst (_result call href σ) = Normal (href (this σ)))
  ∧ (∀ f, href (this σ) = VFun f ->
     fst (_result call href σ) = call f (this σ)).
Proof.
  split_and!.
  - intros v Hv. exists {[ "href" := v ]}. rewrite attributes_cases, Hv.
    split_and!; [reflexivity| |reflexivity]. apply lookup_singleton_eq.
  - unfold _result. destruct (href (this σ)); simpl; try reflexivity. discriminate.
  - intros f Hf. unfold _result. rewrite Hf. reflexivity.
Qed.

(** *** Setters overwrite *)

Lemma text_text (v v' : value) (e : element) : text v (text v' e) = text v e.
Proof. reflexivity. Qed.

Lemma html_html (v v' : value) (e : element) : html v (html v' e) = html v e.
Proof. reflexivity. Qed.

Lemma set_el_set_el (e e' : element) (w : LinkView) :
  set_el e (set_el e' w) = set_el e w.
Proof. reflexivity. Qed.

Lemma with_this_with_this (w w' : LinkView) (σ : World) :
  with_this w (with_this w' σ) = with_this w σ.
Proof. reflexivity. Qed.

(** C6.  Rendering again, when the three content options resolve after
    the first render to what they resolved to before it, changes nothing:
    the second [render()] returns what the first returned and leaves the
    element, and all else, as the first left it. *)
Theorem C6_render_idempotent (σ : World) :
  let σ1 := snd (render call σ) in
  fst (_result call textContent σ1) = fst (_result call textContent σ) ->
  fst (_result call innerHTML σ1) = fst (_result call innerHTML σ) ->
  fst (invoke call template σ1) = fst (invoke call template σ) ->
  render call σ1 = render call σ
  ∧ snd (render call σ1) = σ1
  ∧ el_content (el (this (snd ((render call >> render call) σ))))
    = el_content (el (this (snd (render call σ)))).
Proof.
  cbv zeta. intros Ht Hi Hp.
  assert (Hsame : render call (snd (render call σ)) = render call σ).
  { revert Ht Hi Hp. rewrite (render_cases σ). cbv zeta.
    destruct (truthy (textContent (this σ))) eqn:Et.
    { destruct (fst (_result call textContent σ)) as [v|x] eqn:Ev.
      - cbn [snd]. intros Ht _ _. rewrite render_cases. cbv zeta.
        cbn [this with_this textContent set_el el]. rewrite Et, Ht. reflexivity.
      - cbn [snd]. intros _ _ _. rewrite render_cases. cbv zeta.
        rewrite Et, Ev. reflexivity. }
    destruct (truthy (innerHTML (this σ))) eqn:Ei.
    { destruct (fst (_result call innerHTML σ)) as [v|x] eqn:Ev.
      - cbn [snd]. intros _ Hi _. rewrite render_cases. cbv zeta.
        cbn [this with_this textContent innerHTML set_el el]. rewrite Et, Ei, Hi.
        reflexivity.
      - cbn [snd]. intros _ _ _. rewrite render_cases. cbv zeta.
        rewrite Et, Ei, Ev. reflexivity. }
    destruct (truthy (template (this σ))) eqn:Ep.
    { destruct (fst (invoke call template σ)) as [v|x] eqn:Ev.
      - cbn [snd]. intros _ _ Hp. rewrite render_cases. cbv zeta.
        cbn [this with_this textContent innerHTML template set_el el].
        rewrite Et, Ei, Ep, Hp. reflexivity.
      - cbn [snd]. intros _ _ _. rewrite render_cases. cbv zeta.
        rewrite Et, Ei, Ep, Ev. reflexivity. }
    cbn [snd]. intros _ _ _. rewrite render_cases. cbv zeta.
    rewrite Et, Ei, Ep. reflexivity. }
  split_and!.
  - exact Hsame.
  - rewrite Hsame. reflexivity.
  - unfold bind. destruct (render call σ) as [[w|x] σ1] eqn:Er.
    + cbn [snd] in Hsame. rewrite Hsame. reflexivity.
    + reflexivity.
Qed.

(** C7.  With textContent, innerHTML and template all falsy, [render()]
    touches nothing; and whenever [render()] returns, what it returns is
    the view itself; it fails to return only by passing on what the
    selected option's function threw. *)
Theorem C7_render_untouched_and_returns_this (σ : World) :
  (truthy (textContent (this σ)) = false ->
   truthy (innerHTML (this σ)) = false ->
   truthy (template (this σ)) = false ->
   render call σ = (Normal (this σ), σ))
  ∧ (∀ w σ', render call σ = (Normal w, σ') -> w = this σ')
  ∧ (∀ x σ', render call σ = (Thrown x, σ') ->
       σ' = σ ∧
       (fst (_result call textContent σ) = Thrown x
        ∨ fst (_result call innerHTML σ) = Thrown x
        ∨ fst (invoke call template σ) = Thrown x)).
Proof.
  rewrite render_cases. cbv zeta. split_and!.
  - intros -> -> ->. reflexivity.
  - intros w σ'.
    destruct (truthy (textContent (this σ))).
    { destruct (fst (_result call textContent σ)); [|discriminate].
      intros [= <- <-]. reflexivity. }
    destruct (truthy (innerHTML (this σ))).
    { destruct (fst (_result call innerHTML σ)); [|discriminate].
      intros [= <- <-]. reflexivity. }
    destruct (truthy (template (this σ))).
    { destruct (fst (invoke call template σ)); [|discriminate].
      intros [= <- <-]. reflexivity. }
    intros [= <- <-]. reflexivity.
  - intros x σ'.
    destruct (truthy (textContent (this σ))).
    { destruct (fst (_result call textContent σ)); [discriminate|].
      intros [= <- <-]. auto. }
    destruct (truthy (innerHTML (this σ))).
    { destruct (fst (_result call innerHTML σ)); [discriminate|].
      intros [= <- <-]. auto. }
    destruct (truthy (template (this σ))).
    { destruct (fst (invoke call template σ)); [discriminate|].
      intros [= <- <-]. auto. }
    discriminate.
Qed.

(** *** Frame lemmas *)

Lemma same_options_refl (w : LinkView) : same_options w w.
Proof. repeat split. Qed.

Lemma same_options_trans (w1 w2 w3 : LinkView) :
  same_options w1 w2 -> same_options w2 w3 -> same_options w1 w3.
Proof. unfold same_options. intuition congruence. Qed.

Lemma render_frame (σ : World) :
  same_options (this (snd (render call σ))) (this σ)
  ∧ _isActive (this (snd (render call σ))) = _isActive (this σ)
  ∧ classList (el (this (snd (render call σ)))) = classList (el (this σ)).
Proof.
  rewrite render_cases. cbv zeta.
  destruct (truthy (textContent (this σ))).
  { destruct (fst (_result call textContent σ)); repeat split. }
  destruct (truthy (innerHTML (this σ))).
  { destruct (fst (_result call innerHTML σ)); repeat split. }
  destruct (truthy (template (this σ))).
  { destruct (fst (invoke call template σ)); repeat split. }
  repeat split.
Qed.

(** A click either leaves the view as it is, or ends in the route handler
    run on that same view. *)
Lemma _onClick_view (σ : World) :
  this (snd (_onClick call router σ)) = this σ
  ∨ ∃ τ, this τ = this σ ∧ snd (_onClick call router σ) = snd (_onRoute call τ).
Proof.
  rewrite _onClick_cases.
  destruct (fst (_result call href σ)) as [h|x]; [|left; reflexivity].
  destruct (snd (router h (fragment (history σ)))); [|left; reflexivity].
  right. exists (landed router h σ). split; reflexivity.
Qed.

(** A click that brings no notification leaves the view as it is. *)
Lemma _onClick_quiet (σ : World) :
  match fst (_result call href σ) with
  | Normal h => snd (router h (fragment (history σ)))
  | Thrown _ => false
  end = false ->
  this (snd (_onClick call router σ)) = this σ.
Proof.
  rewrite _onClick_cases.
  destruct (fst (_result call href σ)) as [h|x]; [|reflexivity].
  intros ->. reflexivity.
Qed.

Lemma attributes_frame (σ : World) : snd (attributes call σ) = σ.
Proof. rewrite attributes_cases. destruct (fst (_result call href σ)); reflexivity. Qed.

Lemma isActive_frame (σ : World) : snd (isActive σ) = σ.
Proof. rewrite isActive_eq. reflexivity. Qed.

Lemma _onRoute_frame (σ : World) :
  same_options (this (snd (_onRoute call σ))) (this σ).
Proof.
  rewrite _onRoute_cases.
  destruct (fst (_result call href σ)); [|repeat split].
  destruct (fst (_result call activeClass σ)); [|repeat split].
  cbv zeta. destruct (_ && _); [repeat split|].
  destruct (truthy _); repeat split.
Qed.

(** What a stimulus does to the view: it keeps options, flag and class
    list, or it is the route handler run on that same view. *)
Lemma deliver_view (s : stimulus) (σ : World) :
  (same_options (this (deliver call router s σ)) (this σ)
   ∧ _isActive (this (deliver call router s σ)) = _isActive (this σ)
   ∧ classList (el (this (deliver call router s σ))) = classList (el (this σ)))
  ∨ ∃ τ, this τ = this σ ∧ deliver call router s σ = snd (_onRoute call τ).
Proof.
  destruct s; unfold deliver.
  - left. apply render_frame.
  - left. rewrite attributes_frame. repeat split.
  - left. rewrite isActive_frame. repeat split.
  - destruct (_onClick_view (with_event e σ)) as [Hsame | (τ & Hτ & Hr)].
    + left. rewrite Hsame. repeat split.
    + right. exists τ. split; [exact Hτ | exact Hr].
  - right. exists (at_fragment frag σ). split; reflexivity.
Qed.

Lemma deliver_options (s : stimulus) (σ : World) :
  same_options (this (deliver call router s σ)) (this σ).
Proof.
  destruct (deliver_view s σ) as [(H & _) | (τ & Hτ & ->)]; [exact H|].
  rewrite <- Hτ. apply _onRoute_frame.
Qed.

Lemma run_options (ss : list stimulus) (σ : World) :
  same_options (this (run call router ss σ)) (this σ).
Proof.
  revert σ. induction ss as [|s ss IH]; intros σ; [apply same_options_refl|].
  change (run call router (s :: ss) σ) with (run call router ss (deliver call router s σ)).
  eapply same_options_trans; [apply IH|apply deliver_options].
Qed.

Lemma deliver_isActive (s : stimulus) (σ : World) :
  notifies call router s σ = false ->
  _isActive (this (deliver call router s σ)) = _isActive (this σ).
Proof.
  destruct s; unfold deliver; intros Hs; try discriminate.
  - apply render_frame.
  - rewrite attributes_frame. reflexivity.
  - rewrite isActive_frame. reflexivity.
  - rewrite (_onClick_quiet (with_event e σ)); [reflexivity|].
    rewrite (_result_this href σ (with_event e σ)) by reflexivity. exact Hs.
Qed.

Lemma run_isActive (ss : list stimulus) (σ : World) :
  silent call router ss σ = true ->
  _isActive (this (run call router ss σ)) = _isActive (this σ).
Proof.
  revert σ. induction ss as [|s ss IH]; intros σ Hss; [reflexivity|].
  cbn [silent] in Hss. apply andb_prop in Hss as [Hs Hss].
  change (run call router (s :: ss) σ) with (run call router ss (deliver call router s σ)).
  rewrite (IH _ Hss). apply deliver_isActive.
  destruct (notifies call router s σ); [discriminate|reflexivity].
Qed.

(** *** Construction *)

Lemma pick_lookup (obj : gmap string value) (keys : list string) (k : string) :
  pick obj keys !! k = if decide (k ∈ keys) then obj !! k else None.
Proof.
  unfold pick. rewrite map_lookup_filter.
  destruct (obj !! k) as [v|]; cbn; [|destruct (decide _); reflexivity].
  destruct (decide (k ∈ keys)) as [Hin|Hout].
  - rewrite option_guard_True by exact Hin. reflexivity.
  - rewrite option_guard_False by exact Hout. reflexivity.
Qed.

Lemma configured_isActive (options : gmap string value) :
  _isActive (configured options) = VUndefined.
Proof.
  unfold configured, extend. cbn [_isActive prototype].
  rewrite pick_lookup. reflexivity.
Qed.

Lemma configured_activeClass (options : gmap string value) :
  activeClass (configured options) = default (VStr "active") (options !! "activeClass").
Proof.
  unfold configured, extend. cbn [activeClass prototype].
  rewrite pick_lookup. reflexivity.
Qed.

(** A constructed view is the configured one, with the element the
    framework bound. *)
Lemma constructor_Normal (options : gmap string value) (w : LinkView) :
  constructor View_apply options = Normal w ->
  View_apply (configured options) options = Normal (el w)
  ∧ w = set_el (el w) (configured options).
Proof.
  unfold constructor.
  destruct (View_apply (configured options) options) as [e|x]; [|discriminate].
  intros [= <-]. split; reflexivity.
Qed.

Lemma constructor_isActive (options : gmap string value) (w : LinkView) :
  constructor View_apply options = Normal w -> _isActive w = VUndefined.
Proof.
  intros [_ ->]%constructor_Normal. apply configured_isActive.
Qed.

Lemma constructor_activeClass (options : gmap string value) (w : LinkView) :
  constructor View_apply options = Normal w ->
  activeClass w = default (VStr "active") (options !! "activeClass").
Proof.
  intros [_ ->]%constructor_Normal. apply configured_activeClass.
Qed.

(** C8.  A view constructed without an [activeClass] option resolves its
    active class to ['active'] at every later route change, and that is
    the class the handler adds or removes; a function-valued
    [activeClass] is invoked at each route change, on the view as it is
    then, and the class added or removed is what it returns there. *)
Theorem C8_active_class_default_and_reresolved :
  (∀ (options : gmap string value) (σ0 : World) (ss : list stimulus),
     options !! "activeClass" = None ->
     constructor View_apply options = Normal (this σ0) ->
     let σ := run call router ss σ0 in
     fst (_result call activeClass σ) = Normal (VStr "active")
     ∧ ∀ h, fst (_result call href σ) = Normal h ->
         fst (_onRoute call σ) = Normal tt
         ∧ (h = VStr (fragment (history σ)) ->
            truthy (_isActive (this σ)) = false ->
            el (this (snd (_onRoute call σ))) = addClass (VStr "active") (el (this σ)))
         ∧ (h ≠ VStr (fragment (history σ)) ->
            truthy (_isActive (this σ)) = true ->
            el (this (snd (_onRoute call σ))) = removeClass (VStr "active") (el (this σ))))
  ∧
  (∀ (σ : World) (f : fn_ref),
     activeClass (this σ) = VFun f ->
     fst (_result call activeClass σ) = call f (this σ)
     ∧ ∀ h cls, fst (_result call href σ) = Normal h ->
         call f (this σ) = Normal cls ->
         fst (_onRoute call σ) = Normal tt
         ∧ (h = VStr (fragment (history σ)) ->
            truthy (_isActive (this σ)) = false ->
            el (this (snd (_onRoute call σ))) = addClass cls (el (this σ)))
         ∧ (h ≠ VStr (fragment (history σ)) ->
            truthy (_isActive (this σ)) = true ->
            el (this (snd (_onRoute call σ))) = removeClass cls (el (this σ)))).
Proof.
  assert (Hroute : ∀ σ h cls,
             fst (_result call href σ) = Normal h ->
             fst (_result call activeClass σ) = Normal cls ->
             fst (_onRoute call σ) = Normal tt
             ∧ (h = VStr (fragment (history σ)) ->
                truthy (_isActive (this σ)) = false ->
                el (this (snd (_onRoute call σ))) = addClass cls (el (this σ)))
             ∧ (h ≠ VStr (fragment (history σ)) ->
                truthy (_isActive (this σ)) = true ->
                el (this (snd (_onRoute call σ))) = removeClass cls (el (this σ)))).
  { intros σ h cls Hh Hc. rewrite (_onRoute_resolved σ h cls Hh Hc). cbv zeta.
    split_and!.
    - destruct (_ && _); [reflexivity|]. destruct (truthy _); reflexivity.
    - intros -> ->. rewrite (proj2 (strict_equals_true _ _) eq_refl). reflexivity.
    - intros _ ->. rewrite Bool.andb_false_r. reflexivity. }
  split.
  - intros options σ0 ss Hnone Hthis σ.
    assert (Hcls : fst (_result call activeClass σ) = Normal (VStr "active")).
    { unfold _result.
      destruct (run_options ss σ0) as (_ & Hac & _). fold σ in Hac.
      rewrite Hac, (constructor_activeClass options _ Hthis), Hnone. reflexivity. }
    split; [exact Hcls|]. intros h Hh. apply (Hroute σ h _ Hh Hcls).
  - intros σ f Hf.
    assert (Hcls : fst (_result call activeClass σ) = call f (this σ)).
    { unfold _result. rewrite Hf. reflexivity. }
    split; [exact Hcls|]. intros h cls Hh Hc. apply (Hroute σ h cls Hh).
    rewrite Hcls. exact Hc.
Qed.

(** C9 (as amended).  [render()], [attributes()] and [isActive()] leave
    the [_isActive] flag as it was.  The click handler writes no flag of
    its own, but its [navigate(href, {trigger: true})] lets the router
    fire the route notification before the click returns: when href
    throws or the router fires nothing the flag is as it was, and when
    the router fires, the click ends as the route handler does at the
    fragment the router moved to.  Along any sequence in which no route
    notification is delivered the flag does not move. *)
Theorem C9_flag_moves_only_in_route_handler (σ : World) :
  _isActive (this (snd (render call σ))) = _isActive (this σ)
  ∧ _isActive (this (snd (attributes call σ))) = _isActive (this σ)
  ∧ _isActive (this (snd (isActive σ))) = _isActive (this σ)
  ∧ (∀ x, fst (_result call href σ) = Thrown x ->
       _isActive (this (snd (_onClick call router σ))) = _isActive (this σ))
  ∧ (∀ h, fst (_result call href σ) = Normal h ->
       (snd (router h (fragment (history σ))) = false ->
        _isActive (this (snd (_onClick call router σ))) = _isActive (this σ))
       ∧ (snd (router h (fragment (history σ))) = true ->
          this (landed router h σ) = this σ
          ∧ snd (_onClick call router σ) = snd (_onRoute call (landed router h σ))))
  ∧ ∀ ss, silent call router ss σ = true ->
      _isActive (this (run call router ss σ)) = _isActive (this σ).
Proof.
  split_and!.
  - apply render_frame.
  - rewrite attributes_frame. reflexivity.
  - rewrite isActive_frame. reflexivity.
  - intros x Hx. rewrite _onClick_cases, Hx. reflexivity.
  - intros h Hh. rewrite _onClick_cases, Hh. split.
    + intros ->. reflexivity.
    + intros ->. split; reflexivity.
  - intros ss. apply run_isActive.
Qed.

(** C10.  On a freshly constructed view, whatever is done to it before a
    route notification is delivered, [isActive()] answers [false]; and in
    every state [isActive()] answers a boolean, the truthiness of the
    flag, [false] for a flag that is still [undefined]. *)
Theorem C10_isActive_is_boolean_and_starts_false :
  (∀ (options : gmap string value) (w : LinkView) (h : History) (ev : Event)
     (ss : list stimulus),
     constructor View_apply options = Normal w ->
     silent call router ss {| this := w; history := h; event := ev |} = true ->
     fst (isActive (run call router ss {| this := w; history := h; event := ev |}))
     = Normal (VBool false))
  ∧ (∀ σ : World, ∃ b : bool,
       isActive σ = (Normal (VBool b), σ) ∧ b = truthy (_isActive (this σ)))
  ∧ (∀ σ : World, _isActive (this σ) = VUndefined ->
       fst (isActive σ) = Normal (VBool false)).
Proof.
  split_and!.
  - intros options w h ev ss Hw Hss. rewrite isActive_eq. cbn [fst].
    rewrite (run_isActive ss _ Hss). cbn [this].
    rewrite (constructor_isActive options w Hw). reflexivity.
  - intros σ. eexists. split; [apply isActive_eq|reflexivity].
  - intros σ Hu. rewrite isActive_eq, Hu. reflexivity.
Qed.

End Properties.

(** ** The specified behaviour at concrete views *)

(** C2 at the spec's example: [href: 'about'], a route change to 'about',
    then one to 'home'. *)
Lemma C2_route_change_toggles_witness :
  let σ := at_fragment "about" (fresh_world {[ "href" := VStr "about" ]}) in
  let σ1 := snd (_onRoute sample_call σ) in
  let σ2 := snd (_onRoute sample_call (at_fragment "home" σ1)) in
  (fst (isActive σ1) = Normal (VBool true) ∧ "active" ∈ classList (el (this σ1)))
  ∧ (fst (isActive σ2) = Normal (VBool false) ∧ "active" ∉ classList (el (this σ2))).
Proof.
  cbv zeta.
  pose (σ := at_fragment "about" (fresh_world {[ "href" := VStr "about" ]})).
  destruct (C2_route_change_toggles sample_call σ (VStr "about") (VStr "active")
              eq_refl eq_refl) as [Hon _].
  destruct (Hon eq_refl eq_refl) as (Hr & _ & Hc & Ha).
  fold σ. rewrite Hr. cbn [snd]. split; [split; [exact Ha | exact (Hc _ eq_refl)]|].
  set (σ1 := with_this _ σ) in *.
  destruct (C2_route_change_toggles sample_call (at_fragment "home" σ1)
              (VStr "about") (VStr "active") eq_refl eq_refl) as [_ Hoff].
  assert (Hne : VStr "about" ≠ VStr (fragment (history (at_fragment "home" σ1))))
    by discriminate.
  destruct (Hoff Hne eq_refl) as (Hr2 & _ & Hc2 & Ha2).
  rewrite Hr2. cbn [snd]. split; [exact Ha2 | exact (Hc2 _ eq_refl)].
Defined.

(** C3 at the spec's example: with [textContent: 'A'] and
    [innerHTML: '<b>B</b>'] the element's text is 'A'; innerHTML alone
    gives markup; a template alone gives its output as markup. *)
Lemma C3_render_priority_witness :
  el_content (el (this (snd (render sample_call
     (fresh_world {[ "textContent" := VStr "A"; "innerHTML" := VStr "<b>B</b>" ]})))))
  = Text (VStr "A")
  ∧ el_content (el (this (snd (render sample_call
       (fresh_world {[ "innerHTML" := VStr "<b>B</b>"; "template" := VFun 2 ]})))))
    = Html (VStr "<b>B</b>")
  ∧ el_content (el (this (snd (render sample_call
       (fresh_world {[ "template" := VFun 2 ]})))))
    = Html (VStr "<i>go</i>").
Proof.
  split_and!.
  - apply (proj1 (C3_render_priority sample_call
             (fresh_world {[ "textContent" := VStr "A"; "innerHTML" := VStr "<b>B</b>" ]})
             (VStr "A"))); reflexivity.
  - apply (proj1 (proj2 (C3_render_priority sample_call
             (fresh_world {[ "innerHTML" := VStr "<b>B</b>"; "template" := VFun 2 ]})
             (VStr "<b>B</b>")))); reflexivity.
  - apply (proj2 (proj2 (C3_render_priority sample_call
             (fresh_world {[ "template" := VFun 2 ]})
             (VStr "<i>go</i>")))); reflexivity.
Defined.

(** C4 at the spec's example: [href: () => 'contact']. *)
Lemma C4_click_navigates_witness :
  let σ := fresh_world {[ "href" := VFun 0 ]} in
  defaultPrevented (event σ) = false
  ∧ defaultPrevented (event (snd (_onClick sample_call sample_router σ))) = true
  ∧ navigations (history (snd (_onClick sample_call sample_router σ)))
    = [(VStr "contact", {| trigger := true |})].
Proof.
  cbv zeta. set (σ := fresh_world _).
  destruct (C4_click_navigates sample_call sample_router σ) as [Hp Hn].
  assert (Hh : fst (_result sample_call href σ) = Normal (VStr "contact"))
    by (vm_compute; reflexivity).
  destruct (Hn (VStr "contact") Hh) as [Hnav _].
  split_and!; [reflexivity | exact Hp | exact Hnav].
Defined.

(** C5 for a literal and for a function-valued href. *)
Lemma C5_attributes_href_witness :
  fst (attributes sample_call (fresh_world {[ "href" := VStr "about" ]}))
  = Normal {[ "href" := VStr "about" ]}
  ∧ fst (attributes sample_call (fresh_world {[ "href" := VFun 0 ]}))
    = Normal {[ "href" := VStr "contact" ]}.
Proof.
  split.
  - destruct (C5_attributes_href sample_call (fresh_world {[ "href" := VStr "about" ]}))
      as (Ha & _ & _).
    destruct (Ha (VStr "about") eq_refl) as (o & -> & _ & ->). reflexivity.
  - destruct (C5_attributes_href sample_call (fresh_world {[ "href" := VFun 0 ]}))
      as (Ha & _ & _).
    destruct (Ha (VStr "contact") eq_refl) as (o & -> & _ & ->). reflexivity.
Defined.

(** C6 on the link of the source's own example. *)
Lemma C6_render_idempotent_witness :
  let σ := fresh_world {[ "href" := VStr "about"; "textContent" := VStr "About" ]} in
  el_content (el (this (snd ((render sample_call >> render sample_call) σ))))
  = el_content (el (this (snd (render sample_call σ)))).
Proof.
  cbv zeta.
  apply (C6_render_idempotent sample_call
           (fresh_world {[ "href" := VStr "about"; "textContent" := VStr "About" ]}));
    reflexivity.
Defined.

(** C7 on a link with no content option, on one with a text, and on one
    whose text function throws. *)
Lemma C7_render_untouched_and_returns_this_witness :
  (let σ := fresh_world {[ "href" := VStr "about" ]} in
   render sample_call σ = (Normal (this σ), σ))
  ∧ (let σ := fresh_world {[ "textContent" := VStr "About" ]} in
     fst (render sample_call σ) = Normal (this (snd (render sample_call σ))))
  ∧ (let σ := fresh_world {[ "textContent" := VFun 7 ]} in
     snd (render sample_call σ) = σ).
Proof.
  split_and!; cbv zeta.
  - apply (proj1 (C7_render_untouched_and_returns_this sample_call
                    (fresh_world {[ "href" := VStr "about" ]}))); reflexivity.
  - pose (σ := fresh_world {[ "textContent" := VStr "About" ]}).
    pose (w := set_el (text (VStr "About") blank) (this σ)).
    assert (Er : render sample_call σ = (Normal w, with_this w σ))
      by (vm_compute; reflexivity).
    fold σ. rewrite Er. cbn [fst snd]. apply (f_equal Normal).
    exact (proj1 (proj2 (C7_render_untouched_and_returns_this sample_call σ)) _ _ Er).
  - pose (σ := fresh_world {[ "textContent" := VFun 7 ]}).
    assert (Er : render sample_call σ = (Thrown (Raised (VStr "boom")), σ))
      by (vm_compute; reflexivity).
    fold σ. rewrite Er. cbn [snd].
    exact (proj1 (proj2 (proj2 (C7_render_untouched_and_returns_this sample_call σ))
                    _ _ Er)).
Defined.

(** C8 on a link built without [activeClass], and on one whose
    [activeClass] is function [1]: activated while its flag is unset it
    gets the class the function gives then, 'dim'; deactivated while its
    flag is set it loses the class the function gives then, 'lit'. *)
Lemma C8_active_class_default_and_reresolved_witness :
  (let σ := at_fragment "about" (fresh_world {[ "href" := VStr "about" ]}) in
   el (this (snd (_onRoute sample_call σ))) = addClass (VStr "active") blank)
  ∧ (let σ := at_fragment "about"
                (fresh_world {[ "href" := VStr "about"; "activeClass" := VFun 1 ]}) in
     let σ1 := snd (_onRoute sample_call σ) in
     let σ2 := snd (_onRoute sample_call (at_fragment "home" σ1)) in
     el (this σ1) = addClass (VStr "dim") blank
     ∧ el (this σ2) = removeClass (VStr "lit") (addClass (VStr "dim") blank)).
Proof.
  destruct (C8_active_class_default_and_reresolved sample_call sample_router sample_View)
    as [Hdef Hfun].
  split; cbv zeta.
  - assert (Hnone : ({[ "href" := VStr "about" ]} : gmap string value) !! "activeClass"
                     = None) by reflexivity.
    assert (Hnew : constructor sample_View {[ "href" := VStr "about" ]}
                   = Normal (this (at_fragment "about"
                                     (fresh_world {[ "href" := VStr "about" ]}))))
      by reflexivity.
    destruct (Hdef {[ "href" := VStr "about" ]}
                (at_fragment "about" (fresh_world {[ "href" := VStr "about" ]})) []
                Hnone Hnew) as [_ Hr0].
    destruct (Hr0 (VStr "about") eq_refl) as (_ & Hadd & _).
    exact (Hadd eq_refl eq_refl).
  - pose (σ := at_fragment "about"
                 (fresh_world {[ "href" := VStr "about"; "activeClass" := VFun 1 ]})).
    destruct (Hfun σ 1 eq_refl) as [_ Hr].
    destruct (Hr (VStr "about") (VStr "dim") eq_refl eq_refl) as (_ & Hadd & _).
    fold σ. split; [exact (Hadd eq_refl eq_refl)|].
    set (σ1 := at_fragment "home" (snd (_onRoute sample_call σ))).
    destruct (Hfun σ1 1 eq_refl) as [_ Hr1].
    destruct (Hr1 (VStr "about") (VStr "lit") eq_refl eq_refl) as (_ & _ & Hrem).
    assert (Hne : VStr "about" ≠ VStr (fragment (history σ1))) by discriminate.
    rewrite (Hrem Hne eq_refl). subst σ1. cbn [this at_fragment].
    rewrite (Hadd eq_refl eq_refl). reflexivity.
Defined.

(** C9 as the claim has it fails: a click on a fresh link to 'about',
    the router at 'home', comes back with the flag set. *)
Lemma C9_click_moves_the_flag :
  let σ := fresh_world {[ "href" := VStr "about" ]} in
  _isActive (this (snd (_onClick sample_call sample_router σ))) ≠ _isActive (this σ).
Proof.
  cbv zeta. set (σ := fresh_world _).
  assert (Hafter : _isActive (this (snd (_onClick sample_call sample_router σ)))
                   = VBool true) by (vm_compute; reflexivity).
  assert (Hbefore : _isActive (this σ) = VUndefined) by (vm_compute; reflexivity).
  rewrite Hafter, Hbefore. discriminate.
Qed.

(** C9 as amended, on an active link to 'about': rendered, asked for its
    attributes and state, and clicked while the router is already at
    'about', its flag stays; clicked on a fresh link while the router is
    elsewhere, the click ends as the route handler does at 'about'. *)
Lemma C9_flag_moves_only_in_route_handler_witness :
  (let σ := about_world (VBool true) {[ "active" ]} in
   _isActive (this (run sample_call sample_router
                      [CallRender; Click {| defaultPrevented := false |};
                       CallAttributes; CallIsActive] σ))
   = VBool true)
  ∧ (let σ := fresh_world {[ "href" := VStr "about" ]} in
     snd (_onClick sample_call sample_router σ)
     = snd (_onRoute sample_call (landed sample_router (VStr "about") σ)))
  ∧ (let σ := fresh_world {[ "href" := VFun 7 ]} in
     _isActive (this (snd (_onClick sample_call sample_router σ))) = VUndefined).
Proof.
  split_and!; cbv zeta.
  - destruct (C9_flag_moves_only_in_route_handler sample_call sample_router
                (about_world (VBool true) {[ "active" ]})) as (_ & _ & _ & _ & _ & Hrun).
    rewrite Hrun; reflexivity.
  - set (σ := fresh_world _).
    destruct (C9_flag_moves_only_in_route_handler sample_call sample_router σ)
      as (_ & _ & _ & _ & Hclick & _).
    assert (Hh : fst (_result sample_call href σ) = Normal (VStr "about"))
      by (vm_compute; reflexivity).
    destruct (Hclick (VStr "about") Hh) as [_ Hfires].
    assert (Hf : snd (sample_router (VStr "about") (fragment (history σ))) = true)
      by (vm_compute; reflexivity).
    exact (proj2 (Hfires Hf)).
  - set (σ := fresh_world _).
    destruct (C9_flag_moves_only_in_route_handler sample_call sample_router σ)
      as (_ & _ & _ & Hthrow & _).
    assert (Hx : fst (_result sample_call href σ) = Thrown (Raised (VStr "boom")))
      by (vm_compute; reflexivity).
    rewrite (Hthrow _ Hx). vm_compute. reflexivity.
Defined.

(** C10 on a fresh link to 'home' that is rendered and clicked while the
    router is at 'home', so that no route notification reaches it. *)
Lemma C10_isActive_is_boolean_and_starts_false_witness :
  fst (isActive (run sample_call sample_router
                   [CallRender; Click {| defaultPrevented := false |}]
                   (fresh_world {[ "href" := VStr "home" ]})))
  = Normal (VBool false)
  ∧ fst (isActive (fresh_world ∅)) = Normal (VBool false).
Proof.
  destruct (C10_isActive_is_boolean_and_starts_false sample_call sample_router sample_View)
    as (Hfresh & _ & Hundef).
  split.
  - set (σ := fresh_world _).
    assert (Hnew : constructor sample_View {[ "href" := VStr "home" ]} = Normal (this σ))
      by reflexivity.
    assert (Hs : silent sample_call sample_router
                   [CallRender; Click {| defaultPrevented := false |}]
                   {| this := this σ; history := idle;
                      event := {| defaultPrevented := false |} |} = true)
      by (vm_compute; reflexivity).
    exact (Hfresh _ _ idle {| defaultPrevented := false |} _ Hnew Hs).
  - apply Hundef. reflexivity.
Defined.

(** ** Further properties of the code *)

Section Further.

Variable call : fn_ref -> LinkView -> outcome value.
Variable router : value -> string -> string * bool.
Variable View_apply : LinkView -> gmap string value -> outcome element.

Lemma _result_literal (prop : LinkView -> value) (σ : World) :
  isFunction (prop (this σ)) = false ->
  fst (_result call prop σ) = Normal (prop (this σ)).
Proof. unfold _result. destruct (prop (this σ)); simpl; congruence. Qed.

Lemma deliver_route_change (frag : string) (σ : World) :
  deliver call router (RouteChange frag) σ = snd (_onRoute call (at_fragment frag σ)).
Proof. reflexivity. Qed.

Lemma strict_equals_not_string (s : string) (v : value) :
  isString v = false -> strict_equals (VStr s) v = false.
Proof. destruct v; simpl; congruence. Qed.

(** X2.  Each field of a new view is the option under its name when the
    options have that key, be it bound to [undefined], and the
    prototype's value otherwise; the flag starts absent, and the element
    is the one the framework bound. *)
Theorem constructor_fields (options : gmap string value) (w : LinkView) :
  constructor View_apply options = Normal w ->
  href w = default VNull (options !! "href")
  ∧ activeClass w = default (VStr "active") (options !! "activeClass")
  ∧ textContent w = default VNull (options !! "textContent")
  ∧ innerHTML w = default VNull (options !! "innerHTML")
  ∧ template w = default VNull (options !! "template")
  ∧ _isActive w = VUndefined
  ∧ View_apply (configured options) options = Normal (el w).
Proof.
  intros Hw. destruct (constructor_Normal View_apply options w Hw) as [He Hcfg].
  split_and!; [| | | | | |exact He]; rewrite Hcfg; unfold configured, extend;
    cbn [href activeClass textContent innerHTML template _isActive prototype set_el];
    rewrite pick_lookup; reflexivity.
Qed.

(** What a route change can leave in the flag. *)
Lemma _onRoute_flag (σ : World) :
  _isActive (this (snd (_onRoute call σ))) = _isActive (this σ)
  ∨ ∃ b, _isActive (this (snd (_onRoute call σ))) = VBool b.
Proof.
  rewrite _onRoute_cases.
  destruct (fst (_result call href σ)); [|left; reflexivity].
  destruct (fst (_result call activeClass σ)); [|left; reflexivity].
  cbv zeta. destruct (_ && _); [right; eexists; reflexivity|].
  destruct (truthy _); [right; eexists; reflexivity|left; reflexivity].
Qed.

Lemma deliver_is_flag (s : stimulus) (σ : World) :
  is_flag (_isActive (this σ)) = true ->
  is_flag (_isActive (this (deliver call router s σ))) = true.
Proof.
  intros Hf.
  destruct (deliver_view call router s σ) as [(_ & -> & _) | (τ & Hτ & ->)];
    [exact Hf|].
  destruct (_onRoute_flag τ) as [-> | [b ->]]; [rewrite Hτ; exact Hf|reflexivity].
Qed.

(** X3.  From construction on, whatever reaches the view, its flag is
    either still absent or a boolean. *)
Theorem flag_is_absent_or_boolean
    (options : gmap string value) (w : LinkView) (h : History) (ev : Event)
    (ss : list stimulus) :
  constructor View_apply options = Normal w ->
  is_flag (_isActive (this (run call router ss {| this := w; history := h;
                                                  event := ev |}))) = true.
Proof.
  intros Hw.
  assert (Hrun : ∀ ss σ, is_flag (_isActive (this σ)) = true ->
                         is_flag (_isActive (this (run call router ss σ))) = true).
  { clear ss. induction ss as [|s ss IH]; intros σ Hf; [exact Hf|].
    change (run call router (s :: ss) σ)
      with (run call router ss (deliver call router s σ)).
    apply IH, deliver_is_flag, Hf. }
  apply Hrun. cbn [this]. rewrite (constructor_isActive View_apply options w Hw).
  reflexivity.
Qed.

Lemma hasClass_addClass (c : string) (e : element) :
  hasClass c (addClass (VStr c) e) = true.
Proof.
  apply bool_decide_eq_true_2. cbn. apply elem_of_union_l, elem_of_singleton.
  reflexivity.
Qed.

Lemma hasClass_removeClass (c : string) (e : element) :
  hasClass c (removeClass (VStr c) e) = false.
Proof.
  apply bool_decide_eq_false_2. cbn. intros [_ Hout]%elem_of_difference.
  apply Hout, elem_of_singleton. reflexivity.
Qed.



Lemma _onRoute_flag_tracks_class (c : string) (τ : World) :
  activeClass (this τ) = VStr c ->
  truthy (_isActive (this τ)) = hasClass c (el (this τ)) ->
  truthy (_isActive (this (snd (_onRoute call τ))))
  = hasClass c (el (this (snd (_onRoute call τ)))).
Proof.
  intros Hc Hinv. rewrite _onRoute_cases.
  destruct (fst (_result call href τ)); [|exact Hinv].
  assert (Hr : fst (_result call activeClass τ) = Normal (VStr c)).
  { rewrite _result_literal; rewrite Hc; reflexivity. }
  rewrite Hr. cbv zeta.
  destruct (_ && _).
  { cbn [snd this with_this _isActive set_el set_isActive el truthy].
    rewrite hasClass_addClass. reflexivity. }
  destruct (truthy (_isActive (this τ))) eqn:Ht.
  { cbn [snd this with_this _isActive set_el set_isActive el truthy].
    rewrite hasClass_removeClass. reflexivity. }
  cbn [snd]. rewrite Ht. exact Hinv.
Qed.

Lemma deliver_flag_tracks_class (c : string) (s : stimulus) (σ : World) :
  activeClass (this σ) = VStr c ->
  truthy (_isActive (this σ)) = hasClass c (el (this σ)) ->
  truthy (_isActive (this (deliver call router s σ)))
  = hasClass c (el (this (deliver call router s σ))).
Proof.
  intros Hc Hinv.
  destruct (deliver_view call router s σ) as [(_ & Hflag & Hcl) | (τ & Hτ & ->)].
  - rewrite Hflag. unfold hasClass. rewrite Hcl. exact Hinv.
  - apply _onRoute_flag_tracks_class; rewrite Hτ; assumption.
Qed.

(** X4.  With one class name as the literal [activeClass], the flag and
    the class stay in step: if the view is active exactly when its
    element carries the class, this is still so after anything that
    reaches the view. *)
Theorem flag_tracks_class (c : string) (ss : list stimulus) (σ : World) :
  class_name c = true ->
  activeClass (this σ) = VStr c ->
  truthy (_isActive (this σ)) = hasClass c (el (this σ)) ->
  truthy (_isActive (this (run call router ss σ)))
  = hasClass c (el (this (run call router ss σ))).
Proof.
  intros _. revert σ. induction ss as [|s ss IH]; intros σ Hc Hinv; [exact Hinv|].
  change (run call router (s :: ss) σ)
    with (run call router ss (deliver call router s σ)).
  apply IH.
  - destruct (deliver_options call router s σ) as (_ & -> & _). exact Hc.
  - apply deliver_flag_tracks_class; assumption.
Qed.

(** X5.  After a route change whose two options resolve, the view is
    active exactly when it was inactive before and the fragment is
    strictly equal to the resolved href. *)
Theorem route_change_flag (σ : World) (h cls : value) :
  fst (_result call href σ) = Normal h ->
  fst (_result call activeClass σ) = Normal cls ->
  truthy (_isActive (this (snd (_onRoute call σ))))
  = strict_equals (VStr (fragment (history σ))) h && negb (truthy (_isActive (this σ))).
Proof.
  intros Hh Hc. rewrite (_onRoute_resolved call σ h cls Hh Hc). cbv zeta.
  destruct (strict_equals _ h); destruct (truthy (_isActive (this σ))) eqn:Ht;
    cbn; try reflexivity. exact Ht.
Qed.

(** X6.  When an option function throws inside the route handler, the
    handler passes the exception on and has changed nothing; href is
    resolved first, so its exception wins over that of activeClass. *)
Theorem route_change_throws (σ : World) (x : exn) :
  (fst (_result call href σ) = Thrown x -> _onRoute call σ = (Thrown x, σ))
  ∧ (∀ h, fst (_result call href σ) = Normal h ->
       fst (_result call activeClass σ) = Thrown x ->
       _onRoute call σ = (Thrown x, σ)).
Proof.
  rewrite _onRoute_cases. split.
  - intros ->. reflexivity.
  - intros h -> ->. reflexivity.
Qed.

(** X7.  A click on a view whose href function throws still suppresses
    the event's default action, asks the router for nothing, and passes
    the exception on. *)
Theorem click_throws (σ : World) (x : exn) :
  fst (_result call href σ) = Thrown x ->
  _onClick call router σ = (Thrown x, prevented σ)
  ∧ defaultPrevented (event (snd (_onClick call router σ))) = true
  ∧ navigations (history (snd (_onClick call router σ))) = navigations (history σ)
  ∧ this (snd (_onClick call router σ)) = this σ.
Proof.
  intros Hx. rewrite _onClick_cases, Hx. split_and!; reflexivity.
Qed.

(** X8.  A truthy [template] that is not a function makes [render()]
    throw a TypeError and leave the element alone, once textContent and
    innerHTML are falsy; a truthy [textContent] or [innerHTML] that is
    not a function is written as it is. *)
Theorem render_non_function_options (σ : World) :
  let w := this σ in
  (truthy (textContent w) = false -> truthy (innerHTML w) = false ->
   truthy (template w) = true -> isFunction (template w) = false ->
   render call σ = (Thrown TypeError, σ))
  ∧ (truthy (textContent w) = true -> isFunction (textContent w) = false ->
     el_content (el (this (snd (render call σ)))) = Text (textContent w))
  ∧ (truthy (textContent w) = false -> truthy (innerHTML w) = true ->
     isFunction (innerHTML w) = false ->
     el_content (el (this (snd (render call σ)))) = Html (innerHTML w)).
Proof.
  cbv zeta. rewrite render_cases. cbv zeta. split_and!.
  - intros -> -> -> Hf. unfold invoke. destruct (template (this σ)); try reflexivity.
    discriminate Hf.
  - intros -> Hf. rewrite (_result_literal textContent σ Hf). reflexivity.
  - intros -> -> Hf. rewrite (_result_literal innerHTML σ Hf). reflexivity.
Qed.

(** X9.  [render()] does not fall back: when the option it selects
    throws, it throws the same and writes nothing, whatever the options
    of lower priority hold. *)
Theorem render_no_fallback (σ : World) (x : exn) :
  let w := this σ in
  (truthy (textContent w) = true ->
   fst (_result call textContent σ) = Thrown x ->
   render call σ = (Thrown x, σ))
  ∧ (truthy (textContent w) = false -> truthy (innerHTML w) = true ->
     fst (_result call innerHTML σ) = Thrown x ->
     render call σ = (Thrown x, σ)).
Proof.
  cbv zeta. rewrite render_cases. cbv zeta. split.
  - intros -> ->. reflexivity.
  - intros -> -> ->. reflexivity.
Qed.

(** X10.  [render()] writes the element's content and nothing else: the
    class list, the options, the flag, the router and the event are as
    they were. *)
Theorem render_touches_only_content (σ : World) :
  ∃ c : content,
    snd (render call σ)
    = with_this (set_el {| el_content := c; classList := classList (el (this σ)) |}
                   (this σ)) σ.
Proof.
  assert (Hid : σ = with_this (set_el {| el_content := el_content (el (this σ));
                                         classList := classList (el (this σ)) |}
                                 (this σ)) σ).
  { destruct σ as [[? ? ? ? ? ? []] ? ?]. reflexivity. }
  rewrite render_cases. cbv zeta.
  destruct (truthy (textContent (this σ))).
  { destruct (fst (_result call textContent σ)) as [v|x];
      [exists (Text v); reflexivity | eexists; exact Hid]. }
  destruct (truthy (innerHTML (this σ))).
  { destruct (fst (_result call innerHTML σ)) as [v|x];
      [exists (Html v); reflexivity | eexists; exact Hid]. }
  destruct (truthy (template (this σ))).
  { destruct (fst (invoke call template σ)) as [v|x];
      [exists (Html v); reflexivity | eexists; exact Hid]. }
  eexists; exact Hid.
Qed.

Lemma _onRoute_never_matches (τ : World) :
  isFunction (href (this τ)) = false ->
  isString (href (this τ)) = false ->
  truthy (_isActive (this τ)) = false ->
  this (snd (_onRoute call τ)) = this τ.
Proof.
  intros Hfun Hstr Hoff. rewrite _onRoute_cases.
  rewrite (_result_literal href τ) by exact Hfun.
  destruct (fst (_result call activeClass τ)); [|reflexivity].
  cbv zeta. rewrite (strict_equals_not_string _ _ Hstr), Hoff. reflexivity.
Qed.

Lemma deliver_never_matches (s : stimulus) (σ : World) :
  isFunction (href (this σ)) = false ->
  isString (href (this σ)) = false ->
  truthy (_isActive (this σ)) = false ->
  _isActive (this (deliver call router s σ)) = _isActive (this σ)
  ∧ classList (el (this (deliver call router s σ))) = classList (el (this σ)).
Proof.
  intros Hfun Hstr Hoff.
  destruct (deliver_view call router s σ) as [(_ & Hflag & Hcl) | (τ & Hτ & ->)].
  - split; assumption.
  - rewrite _onRoute_never_matches by (rewrite Hτ; assumption).
    rewrite Hτ. split; reflexivity.
Qed.

(** X11.  A view whose href is neither a function nor a string, the
    [null] of a view built without one included, is never switched on:
    starting inactive, its flag and its class list are never changed. *)
Theorem non_string_href_never_active (ss : list stimulus) (σ : World) :
  isFunction (href (this σ)) = false ->
  isString (href (this σ)) = false ->
  truthy (_isActive (this σ)) = false ->
  _isActive (this (run call router ss σ)) = _isActive (this σ)
  ∧ classList (el (this (run call router ss σ))) = classList (el (this σ)).
Proof.
  revert σ. induction ss as [|s ss IH]; intros σ Hfun Hstr Hoff; [split; reflexivity|].
  change (run call router (s :: ss) σ) with (run call router ss (deliver call router s σ)).
  destruct (deliver_never_matches s σ Hfun Hstr Hoff) as [Hflag Hcl].
  destruct (deliver_options call router s σ) as (Hhref & _).
  destruct (IH (deliver call router s σ)) as [-> ->].
  - rewrite Hhref. exact Hfun.
  - rewrite Hhref. exact Hstr.
  - rewrite Hflag. exact Hoff.
  - split; assumption.
Qed.


(** X13.  With literal href and activeClass, a route change to a
    fragment other than the href is idempotent: delivered a second time
    it changes nothing more. *)
Theorem route_change_elsewhere_idempotent (frag : string) (σ : World) :
  isFunction (href (this σ)) = false ->
  isFunction (activeClass (this σ)) = false ->
  strict_equals (VStr frag) (href (this σ)) = false ->
  deliver call router (RouteChange frag) (deliver call router (RouteChange frag) σ)
  = deliver call router (RouteChange frag) σ.
Proof.
  intros Hh Hc Hne.
  assert (Hstep : ∀ τ,
            this τ = this σ
            \/ this τ = set_el (removeClass (activeClass (this σ)) (el (this σ)))
                          (set_isActive (VBool false) (this σ)) ->
            _onRoute call (at_fragment frag τ)
            = if truthy (_isActive (this τ)) then
                (Normal tt,
                 with_this (set_el (removeClass (activeClass (this τ)) (el (this τ)))
                              (set_isActive (VBool false) (this τ)))
                   (at_fragment frag τ))
              else (Normal tt, at_fragment frag τ)).
  { intros τ Hτ.
    assert (Hh' : isFunction (href (this τ)) = false) by (destruct Hτ as [->| ->]; exact Hh).
    assert (Hc' : isFunction (activeClass (this τ)) = false)
      by (destruct Hτ as [->| ->]; exact Hc).
    assert (Hne' : strict_equals (VStr frag) (href (this τ)) = false)
      by (destruct Hτ as [->| ->]; exact Hne).
    rewrite (_onRoute_resolved call (at_fragment frag τ) _ _
               (_result_literal href (at_fragment frag τ) Hh')
               (_result_literal activeClass (at_fragment frag τ) Hc')).
    cbv zeta. cbn [this at_fragment history fragment]. rewrite Hne'. reflexivity. }
  rewrite !deliver_route_change.
  rewrite (Hstep σ) by (left; reflexivity).
  destruct (truthy (_isActive (this σ))) eqn:Ht.
  - cbn [snd]. rewrite Hstep by (right; reflexivity).
    cbn [this with_this _isActive set_el set_isActive truthy snd]. reflexivity.
  - cbn [snd]. rewrite Hstep by (left; reflexivity).
    cbn [this at_fragment]. rewrite Ht. reflexivity.
Qed.

Lemma deliver_match_flips (frag : string) (σ : World) :
  href (this σ) = VStr frag ->
  isFunction (activeClass (this σ)) = false ->
  truthy (_isActive (this (deliver call router (RouteChange frag) σ)))
  = negb (truthy (_isActive (this σ))).
Proof.
  intros Hh Hc. rewrite deliver_route_change.
  assert (Hr : fst (_result call href (at_fragment frag σ)) = Normal (VStr frag)).
  { rewrite _result_literal; cbn [this at_fragment]; rewrite Hh; reflexivity. }
  rewrite (_onRoute_resolved call (at_fragment frag σ) _ _ Hr
             (_result_literal activeClass (at_fragment frag σ) Hc)).
  cbv zeta. cbn [this at_fragment history fragment].
  rewrite (proj2 (strict_equals_true _ _) eq_refl).
  destruct (truthy (_isActive (this σ))) eqn:Ht; cbn; [reflexivity|].
  reflexivity.
Qed.

(** X14.  Route changes that all report the fragment of a literal href
    make the view alternate: after an odd number of them its active state
    is the opposite of what it was, after an even number the same. *)
Theorem matching_route_changes_alternate (frag : string) (n : nat) (σ : World) :
  href (this σ) = VStr frag ->
  isFunction (activeClass (this σ)) = false ->
  truthy (_isActive (this (run call router (repeat (RouteChange frag) n) σ)))
  = xorb (Nat.odd n) (truthy (_isActive (this σ))).
Proof.
  revert σ. induction n as [|n IH]; intros σ Hh Hc; [reflexivity|].
  change (run call router (repeat (RouteChange frag) (S n)) σ)
    with (run call router (repeat (RouteChange frag) n)
            (deliver call router (RouteChange frag) σ)).
  destruct (deliver_options call router (RouteChange frag) σ) as (Hh' & Hc' & _).
  rewrite IH.
  - rewrite (deliver_match_flips frag σ Hh Hc), Nat.odd_succ, <- Nat.negb_odd.
    destruct (Nat.odd n), (truthy (_isActive (this σ))); reflexivity.
  - rewrite Hh'. exact Hh.
  - rewrite Hc'. exact Hc.
Qed.

End Further.

(** ** The further properties at concrete views *)

Lemma constructor_fields_witness :
  let w := this (fresh_world {[ "href" := VStr "about"; "activeClass" := VUndefined;
                                "_isActive" := VBool true ]}) in
  href w = VStr "about" ∧ activeClass w = VUndefined ∧ textContent w = VNull
  ∧ _isActive w = VUndefined.
Proof.
  cbv zeta. set (σ := fresh_world _).
  assert (Hnew : constructor sample_View
                   {[ "href" := VStr "about"; "activeClass" := VUndefined;
                      "_isActive" := VBool true ]} = Normal (this σ)) by reflexivity.
  destruct (constructor_fields sample_View _ _ Hnew) as (-> & -> & -> & _ & _ & -> & _).
  split_and!; reflexivity.
Defined.

Lemma flag_is_absent_or_boolean_witness :
  is_flag (_isActive (this (run sample_call sample_router
                              [Click {| defaultPrevented := false |};
                               RouteChange "home"; CallRender]
                              (fresh_world {[ "href" := VStr "about" ]})))) = true.
Proof.
  set (σ := fresh_world _).
  assert (Hnew : constructor sample_View {[ "href" := VStr "about" ]} = Normal (this σ))
    by reflexivity.
  exact (flag_is_absent_or_boolean sample_call sample_router sample_View _ _ idle
           {| defaultPrevented := false |} _ Hnew).
Defined.

Lemma flag_tracks_class_witness :
  let σ := run sample_call sample_router
             [RouteChange "about"; CallRender; RouteChange "home";
              Click {| defaultPrevented := false |}]
             (fresh_world {[ "href" := VStr "about" ]}) in
  truthy (_isActive (this σ)) = hasClass "active" (el (this σ)).
Proof.
  cbv zeta. apply flag_tracks_class; vm_compute; reflexivity.
Defined.

Lemma route_change_flag_witness :
  truthy (_isActive (this (snd (_onRoute sample_call
                                  (about_world (VBool true) {[ "active" ]})))))
  = false.
Proof.
  rewrite (route_change_flag sample_call (about_world (VBool true) {[ "active" ]})
             (VStr "about") (VStr "active") eq_refl eq_refl).
  reflexivity.
Defined.

Lemma route_change_throws_witness :
  (let σ := fresh_world {[ "href" := VFun 7; "activeClass" := VFun 8 ]} in
   _onRoute sample_call σ = (Thrown (Raised (VStr "boom")), σ))
  ∧ (let σ := fresh_world {[ "href" := VStr "home"; "activeClass" := VFun 7 ]} in
     _onRoute sample_call σ = (Thrown (Raised (VStr "boom")), σ)).
Proof.
  split; cbv zeta.
  - apply (proj1 (route_change_throws sample_call
                    (fresh_world {[ "href" := VFun 7; "activeClass" := VFun 8 ]})
                    (Raised (VStr "boom")))).
    reflexivity.
  - apply (proj2 (route_change_throws sample_call
                    (fresh_world {[ "href" := VStr "home"; "activeClass" := VFun 7 ]})
                    (Raised (VStr "boom"))) (VStr "home")); reflexivity.
Defined.

Lemma click_throws_witness :
  let σ := fresh_world {[ "href" := VFun 7 ]} in
  defaultPrevented (event (snd (_onClick sample_call sample_router σ))) = true
  ∧ navigations (history (snd (_onClick sample_call sample_router σ))) = [].
Proof.
  cbv zeta.
  assert (Hx : fst (_result sample_call href (fresh_world {[ "href" := VFun 7 ]}))
               = Thrown (Raised (VStr "boom"))) by (vm_compute; reflexivity).
  destruct (click_throws sample_call sample_router (fresh_world {[ "href" := VFun 7 ]})
              (Raised (VStr "boom")) Hx) as (_ & Hp & Hn & _).
  split; [exact Hp | rewrite Hn; reflexivity].
Defined.

Lemma render_non_function_options_witness :
  (let σ := fresh_world {[ "template" := VStr "<p>hello</p>" ]} in
   render sample_call σ = (Thrown TypeError, σ))
  ∧ el_content (el (this (snd (render sample_call
                                 (fresh_world {[ "textContent" := VNum 5 ]})))))
    = Text (VNum 5)
  ∧ el_content (el (this (snd (render sample_call
                                 (fresh_world {[ "innerHTML" := VObj 3 ]})))))
    = Html (VObj 3).
Proof.
  split_and!; cbv zeta.
  - apply (proj1 (render_non_function_options sample_call
                    (fresh_world {[ "template" := VStr "<p>hello</p>" ]})));
      reflexivity.
  - set (σ := fresh_world _).
    assert (H1 : truthy (textContent (this σ)) = true) by (vm_compute; reflexivity).
    assert (H2 : isFunction (textContent (this σ)) = false) by (vm_compute; reflexivity).
    rewrite (proj1 (proj2 (render_non_function_options sample_call σ)) H1 H2).
    vm_compute. reflexivity.
  - set (σ := fresh_world _).
    assert (H1 : truthy (textContent (this σ)) = false) by (vm_compute; reflexivity).
    assert (H2 : truthy (innerHTML (this σ)) = true) by (vm_compute; reflexivity).
    assert (H3 : isFunction (innerHTML (this σ)) = false) by (vm_compute; reflexivity).
    rewrite (proj2 (proj2 (render_non_function_options sample_call σ)) H1 H2 H3).
    vm_compute. reflexivity.
Defined.

Lemma render_no_fallback_witness :
  (let σ := fresh_world {[ "textContent" := VFun 7; "innerHTML" := VStr "<b>B</b>" ]} in
   render sample_call σ = (Thrown (Raised (VStr "boom")), σ))
  ∧ (let σ := fresh_world {[ "innerHTML" := VFun 7; "template" := VFun 2 ]} in
     render sample_call σ = (Thrown (Raised (VStr "boom")), σ)).
Proof.
  split; cbv zeta.
  - apply (proj1 (render_no_fallback sample_call
                    (fresh_world {[ "textContent" := VFun 7; "innerHTML" := VStr "<b>B</b>" ]})
                    (Raised (VStr "boom")))); reflexivity.
  - apply (proj2 (render_no_fallback sample_call
                    (fresh_world {[ "innerHTML" := VFun 7; "template" := VFun 2 ]})
                    (Raised (VStr "boom")))); reflexivity.
Defined.

Lemma non_string_href_never_active_witness :
  let σ := run sample_call sample_router
             [RouteChange "home"; CallRender; Click {| defaultPrevented := false |};
              RouteChange "null"]
             (fresh_world ∅) in
  _isActive (this σ) = VUndefined ∧ classList (el (this σ)) = ∅.
Proof.
  cbv zeta. set (σ := fresh_world ∅).
  assert (H1 : isFunction (href (this σ)) = false) by (vm_compute; reflexivity).
  assert (H2 : isString (href (this σ)) = false) by (vm_compute; reflexivity).
  assert (H3 : truthy (_isActive (this σ)) = false) by (vm_compute; reflexivity).
  destruct (non_string_href_never_active sample_call sample_router
              [RouteChange "home"; CallRender; Click {| defaultPrevented := false |};
               RouteChange "null"]
              σ H1 H2 H3) as [-> ->].
  split; vm_compute; reflexivity.
Defined.


Lemma route_change_elsewhere_idempotent_witness :
  let σ := about_world (VBool true) {[ "active" ]} in
  deliver sample_call sample_router (RouteChange "home")
    (deliver sample_call sample_router (RouteChange "home") σ)
  = deliver sample_call sample_router (RouteChange "home") σ.
Proof.
  cbv zeta. apply route_change_elsewhere_idempotent; reflexivity.
Defined.

Lemma matching_route_changes_alternate_witness :
  truthy (_isActive (this (run sample_call sample_router (repeat (RouteChange "about") 3)
                             (about_world VUndefined ∅))))
  = true.
Proof.
  rewrite (matching_route_changes_alternate sample_call sample_router "about" 3
             (about_world VUndefined ∅) eq_refl eq_refl).
  reflexivity.
Defined.
